(** * charmed_kubeflow_helpers: status-bearing errors, leadership gate and
      the Kubernetes resource handler

    A shallow embedding of the Python package [charmed_kubeflow_helpers]:
    - [status_handling/_charm_status_type.py]  (the four charm status classes)
    - [exceptions/_status_exceptions.py]       ([ErrorWithStatus], [LeadershipError])
    - [utilities/_check_leadership.py]         ([is_leader])
    - [lightkube/types.py]                     (lists of lightkube resources)
    - [lightkube/utilities/_manifest_charm_extension.py]
                                               ([KubernetesResourceHandler])

    Python code that raises is embedded in a state-and-exception monad in
    which, as in Python, the effects performed before a [raise] stay visible
    to whoever catches the exception. *)

From Stdlib Require Import ZArith.
From stdpp Require Import base option list strings pretty gmap.


(** ** Python values and [str()] *)

(** The values a caller passes where the code calls [str(...)] on them.  Only
    the built-in scalars are modelled; [str] of each is what CPython prints. *)
Inductive PyVal : Type :=
| PyNone
| PyBool (b : bool)
| PyInt (z : Z)
| PyStr (s : string).

Definition py_str (v : PyVal) : string :=
  match v with
  | PyNone => "None"
  | PyBool true => "True"
  | PyBool false => "False"
  | PyInt z => pretty z
  | PyStr s => s
  end.

(** ** [status_handling/_charm_status_type.py] *)

(** [CharmStatusType = Union[ActiveStatus, WaitingStatus, BlockedStatus,
    MaintenanceStatus]]: a closed set of four status classes of [ops.model]. *)
Inductive CharmStatusType : Type :=
| ActiveStatus
| WaitingStatus
| BlockedStatus
| MaintenanceStatus.

#[global] Instance CharmStatusType_eq_dec : EqDecision CharmStatusType.
Proof. solve_decision. Defined.

(** An instance of one of the status classes: [ops.model.StatusBase] keeps the
    message it was built with. *)
Record Status : Type := mkStatus {
  status_class : CharmStatusType;
  message : string
}.

(** [T(message)]: calling a status class on a message. *)
Definition new_status (T : CharmStatusType) (message : string) : Status :=
  mkStatus T message.

(** ** [exceptions/_status_exceptions.py] *)

(** The classes of the [ErrorWithStatus] hierarchy that the package raises. *)
Inductive StatusErrorClass : Type :=
| ClsErrorWithStatus
| ClsLeadershipError
| ClsReconcileError.

#[global] Instance StatusErrorClass_eq_dec : EqDecision StatusErrorClass.
Proof. solve_decision. Defined.

(** An [ErrorWithStatus] object: its dynamic class, the [args] that
    [Exception.__init__] stored, and the two attributes [__init__] sets. *)
Record ErrorWithStatus : Type := mkErrorWithStatus {
  exc_class : StatusErrorClass;
  exc_args : list string;
  msg : string;
  status_type : CharmStatusType
}.

(** [ErrorWithStatus.__init__(self, msg, status_type)], run for an object of
    class [cls]:
      super().__init__(str(msg)); self.msg = str(msg);
      self.status_type = status_type *)
Definition ErrorWithStatus_init (cls : StatusErrorClass) (m : PyVal)
    (T : CharmStatusType) : ErrorWithStatus :=
  {| exc_class := cls;
     exc_args := [py_str m];
     msg := py_str m;
     status_type := T |}.

(** [ErrorWithStatus(msg, status_type)] *)
Definition new_ErrorWithStatus (m : PyVal) (T : CharmStatusType) : ErrorWithStatus :=
  ErrorWithStatus_init ClsErrorWithStatus m T.

(** The [status] property: [self.status_type(self.msg)]. *)
Definition status (e : ErrorWithStatus) : Status :=
  new_status (status_type e) (msg e).

(** [LeadershipError(msg="Waiting for leadership", status_type=WaitingStatus)]:
    both arguments are optional; [None] here stands for an omitted argument. *)
Definition new_LeadershipError (m : option PyVal) (T : option CharmStatusType)
    : ErrorWithStatus :=
  ErrorWithStatus_init ClsLeadershipError
    (default (PyStr "Waiting for leadership") m)
    (default WaitingStatus T).

(** Modelled from the spec: the class [ReconcileError] of
    [lightkube/exceptions], which the handler imports and raises but whose
    declaration is not among the sources.  The spec describes the failure of a
    reconcile pass as status-bearing (a verdict and a cause), and the handler
    builds it with the two arguments of [ErrorWithStatus]; it is taken to be a
    subclass of [ErrorWithStatus] that inherits [__init__] and [status]. *)
Definition new_ReconcileError (m : PyVal) (T : CharmStatusType) : ErrorWithStatus :=
  ErrorWithStatus_init ClsReconcileError m T.

(** ** Exceptions and results *)

(** What Python code of this package can raise: an [ErrorWithStatus] (or a
    subclass), lightkube's [ApiError] with the code of its [status], or any
    other exception, kept by class name and text. *)
Inductive Exc : Type :=
| StatusExc (e : ErrorWithStatus)
| ApiError (code : Z) (text : string)
| OtherExc (cls : string) (text : string).

(** [str(e)] *)
Definition exc_str (e : Exc) : string :=
  match e with
  | StatusExc e' => match exc_args e' with [a] => a | _ => "" end
  | ApiError _ text => text
  | OtherExc _ text => text
  end.

Inductive Result (A : Type) : Type :=
| Ok (a : A)
| Raise (e : Exc).
Arguments Ok {A} a.
Arguments Raise {A} e.

(** ** [utilities/_check_leadership.py] *)

(** The part of an [ops] charm the package reads. *)
Record Charm : Type := mkCharm {
  unit_is_leader : bool;                       (* charm.unit.is_leader() *)
  charm_has_log : bool;                        (* whether charm.log exists *)
  context_for_render : list (string * PyVal);  (* charm.context_for_render *)
  charm_template_files : list string           (* charm.template_files *)
}.

(** [is_leader(charm, raise_if_not_leader=True)] *)
Definition is_leader (charm : Charm) (raise_if_not_leader : bool) : Result bool :=
  if negb (unit_is_leader charm) then
    if raise_if_not_leader then
      Raise (StatusExc (new_LeadershipError None None))
    else
      Ok false
  else Ok true.

(** ** [lightkube/types.py] *)

(** [LightkubeResourceType = Union[NamespacedResource, GlobalResource]]: a
    resource is identified by kind, name and, for a namespaced kind, namespace,
    and carries the specification the manifest gives it. *)
Inductive LightkubeResourceType : Type :=
| NamespacedResource (kind namespace name : string) (spec : string)
| GlobalResource (kind name : string) (spec : string).

(** [LightkubeResourcesType = List[LightkubeResourceType]] *)
Abbreviation LightkubeResourcesType := (list LightkubeResourceType).

(** Kind, namespace (absent for cluster-scoped kinds) and name. *)
Abbreviation ResourceId := (string * option string * string)%type.

Definition resource_id (r : LightkubeResourceType) : ResourceId :=
  match r with
  | NamespacedResource k ns n _ => (k, Some ns, n)
  | GlobalResource k n _ => (k, None, n)
  end.

Definition resource_name (r : LightkubeResourceType) : string :=
  match r with
  | NamespacedResource _ _ n _ => n
  | GlobalResource _ n _ => n
  end.

(** ** The cluster, the handler and the world they live in *)

(** An object as the cluster holds it: the specification last applied and the
    status the cluster reports for it. *)
Record LiveObject : Type := mkLiveObject {
  live_spec : string;
  live_status : string
}.

(** The state of the cluster: the objects it holds, by identifier. *)
Abbreviation Cluster := (gmap (string * option string * string) LiveObject).

(** A [lightkube.Client]; the handler builds it with a field manager. *)
Record Client : Type := mkClient { field_manager : string }.

(** The methods of a [lightkube.Client] that touch the cluster. *)
Inductive ClientCall : Type :=
| CallGet (id : ResourceId)
| CallApplyMany (resources : LightkubeResourcesType)
| CallDelete (id : ResourceId).

Inductive LogLevel : Type := DEBUG | INFO | ERROR.

(** What a pass does that an observer of the process can see, in order. *)
Inductive Event : Type :=
| EvLog (level : LogLevel) (text : string)
| EvReadText (path : string)
| EvTemplateRender (template : string)
| EvLoadAllYaml (text : string)
| EvClient (call : ClientCall).

(** Which logger [__init__] picked: [charm.log], or the module's own. *)
Inductive Logger : Type := CharmLog | ModuleLog.

(** The attributes of a [KubernetesResourceHandler].  [__init__] sets
    [_charm], [log] and [_lightkube_client].  The [lightkube_client] property
    also reads [self.app_name], which no code of the class sets: [app_name] is
    [None] when the object has no such attribute, and holds the name when a
    subclass or the caller added one. *)
Record Handler : Type := mkHandler {
  _charm : Charm;
  log : Logger;
  _lightkube_client : option Client;
  app_name : option string
}.

Record World : Type := mkWorld {
  handler : Handler;
  cluster : Cluster;
  trace : list Event
}.

(** The collaborators the handler calls and does not implement: the file
    system and the template engine, lightkube's codecs and client, and the
    kind-specific readiness rule of the resource checker. *)
Record Collaborators : Type := mkCollaborators {
  (* Path(template_file).read_text() *)
  read_text : string -> Result string;
  (* Template(text).render with the context as keyword arguments *)
  template_render : string -> list (string * PyVal) -> Result string;
  (* codecs.load_all_yaml(text) *)
  load_all_yaml : string -> Result LightkubeResourcesType;
  (* what an f-string prints for the context *)
  format_context : list (string * PyVal) -> string;
  (* client.get(...): the object, None when absent, or a failed lookup *)
  client_get : Cluster -> ResourceId -> Result (option LiveObject);
  (* readiness of a live object for its resource: None when ready, or the
     property that is missing *)
  readiness : LightkubeResourceType -> LiveObject -> option string;
  (* client.apply_many(resources): the cluster afterwards, and the exception
     raised if any *)
  client_apply_many : Cluster -> LightkubeResourcesType -> Cluster * option Exc
}.

(** ** The monad of Python statements *)

(** A statement runs in a world and ends normally with a value or raises; in
    both cases the world it leaves behind is kept. *)
Definition M (A : Type) : Type := World -> Result A * World.

Definition ret {A} (a : A) : M A := fun w => (Ok a, w).

Definition bind {A B} (c : M A) (k : A -> M B) : M B :=
  fun w =>
    match c w with
    | (Ok a, w') => k a w'
    | (Raise e, w') => (Raise e, w')
    end.

Definition raise {A} (e : Exc) : M A := fun w => (Raise e, w).

(** A pure computation that may raise, run as a statement. *)
Definition lift {A} (r : Result A) : M A := fun w => (r, w).

(** [try: body  except <clause> as e: handler e].  [clause e] is the handler
    for [e] when the except clause matches it, and [None] when it does not. *)
Definition try_except {A} (body : M A) (clause : Exc -> option (M A)) : M A :=
  fun w =>
    match body w with
    | (Ok a, w') => (Ok a, w')
    | (Raise e, w') =>
        match clause e with
        | Some h => h w'
        | None => (Raise e, w')
        end
    end.

Definition emit (ev : Event) : M unit :=
  fun w => (Ok tt, mkWorld (handler w) (cluster w) (trace w ++ [ev])).

Definition get_handler : M Handler := fun w => (Ok (handler w), w).
Definition get_cluster : M Cluster := fun w => (Ok (cluster w), w).

Declare Scope py_scope.
Delimit Scope py_scope with py.
Notation "x <- c ;; k" := (bind c (fun x => k))
  (at level 100, c at next level, right associativity) : py_scope.
Notation "c ;; k" := (bind c (fun _ => k))
  (at level 100, right associativity) : py_scope.
Open Scope py_scope.

(** [self.log.info(text)] and its siblings. *)
Definition log_info (text : string) : M unit := emit (EvLog INFO text).
Definition log_debug (text : string) : M unit := emit (EvLog DEBUG text).
Definition log_error (text : string) : M unit := emit (EvLog ERROR text).

(** [except LeadershipError as e]: matches objects of that class only (the
    package declares no subclass of it). *)
Definition except_LeadershipError {A} (h : ErrorWithStatus -> M A)
    : Exc -> option (M A) :=
  fun e =>
    match e with
    | StatusExc e' =>
        if decide (exc_class e' = ClsLeadershipError) then Some (h e') else None
    | _ => None
    end.

(** [except ApiError as e]: the handler gets the exception and
    [e.status.code]. *)
Definition except_ApiError {A} (h : Exc -> Z -> M A) : Exc -> option (M A) :=
  fun e =>
    match e with
    | ApiError code _ => Some (h e code)
    | _ => None
    end.

(** The line feed of the Python string literals. *)
Definition nl : string := String (Ascii.ascii_of_nat 10) EmptyString.

(** ** The severity model and the resource checks *)

(** Modelled from the spec: the order of the verdicts, least to most severe,
    Healthy < Waiting < Maintenance < Blocked.  The module
    [lightkube/utilities/_check_resources.py], which ranks the errors, is not
    among the sources; Healthy is the status class [ActiveStatus], the one
    [resource_status] returns when every check passed. *)
Definition severity (T : CharmStatusType) : nat :=
  match T with
  | ActiveStatus => 0
  | WaitingStatus => 1
  | MaintenanceStatus => 2
  | BlockedStatus => 3
  end.

(** Modelled from the spec: the verdict of no cause at all, Healthy with an
    empty message.  [_check_resources.py] is not among the sources. *)
Definition healthy : ErrorWithStatus :=
  new_ErrorWithStatus (PyStr "") ActiveStatus.

(** Modelled from the spec: the scan behind [get_first_worst_error], whose
    module [_check_resources.py] is not among the sources.  [best] is the
    first of the worst seen so far; a later element replaces it only when
    strictly more severe, so that among equals the first occurrence stays. *)
Fixpoint first_worst_from (best : ErrorWithStatus) (errors : list ErrorWithStatus)
    : ErrorWithStatus :=
  match errors with
  | [] => best
  | error :: rest =>
      if (severity (status_type best) <? severity (status_type error))%nat
      then first_worst_from error rest
      else first_worst_from best rest
  end.

(** Modelled from the spec: [get_first_worst_error] of [_check_resources.py],
    which is not among the sources.  It is the spec's worst-of reduction: Healthy
    on empty input; otherwise the maximum under the order of [severity], the
    first occurrence in input order among equals.  Its result is an object with
    a [status], as [resource_status] uses it. *)
Definition get_first_worst_error (errors : list ErrorWithStatus) : ErrorWithStatus :=
  match errors with
  | [] => healthy
  | error :: rest => first_worst_from error rest
  end.

Section Handler.

Variable env : Collaborators.

(** Modelled from the spec: the check of one resource (the spec's resource
    checker), part of [_check_resources.py], which is not among the sources.
    It looks the live object up; an absent or not ready object gives a Waiting
    cause naming the resource and what is missing, a ready one gives no cause
    ([None]); a lookup that fails is raised unchanged. *)
Definition check_resource (client : Client) (r : LightkubeResourceType)
    : M (option ErrorWithStatus) :=
  emit (EvClient (CallGet (resource_id r)));;
  c <- get_cluster;;
  found <- lift (client_get env c (resource_id r));;
  match found with
  | None =>
      ret (Some (new_ErrorWithStatus
                   (PyStr (resource_name r +:+ ": not found")) WaitingStatus))
  | Some obj =>
      match readiness env r obj with
      | None => ret None
      | Some missing =>
          ret (Some (new_ErrorWithStatus
                       (PyStr (resource_name r +:+ ": " +:+ missing)) WaitingStatus))
      end
  end.

(** Modelled from the spec: the Blocked-level cause, could not determine
    status, that the aggregation of [_check_resources.py] (not among the
    sources) records for a resource whose lookup failed. *)
Definition undetermined (r : LightkubeResourceType) : ErrorWithStatus :=
  new_ErrorWithStatus
    (PyStr (resource_name r +:+ ": could not determine status")) BlockedStatus.

(** Modelled from the spec: the loop of [check_resources], in
    [_check_resources.py], which is not among the sources.  It checks the
    resources in declaration order and gives one entry per resource; a failed
    lookup is caught and becomes that resource's Blocked-level entry. *)
Fixpoint check_each (client : Client) (resources : LightkubeResourcesType)
    : M (list (option ErrorWithStatus)) :=
  match resources with
  | [] => ret []
  | r :: rest =>
      result <- try_except (check_resource client r)
                  (fun _ => Some (ret (Some (undetermined r))));;
      results <- check_each client rest;;
      ret (result :: results)
  end.

Definition is_none {A} (o : option A) : bool :=
  match o with None => true | Some _ => false end.

(** Modelled from the spec: [check_resources] of [_check_resources.py], which
    is not among the sources.  [resource_status] takes from it a pair: whether
    all is well, and the errors, with [None] for a resource without one.  The
    spec's aggregation runs the check over every resource in declaration
    order and completes even when a lookup fails: that resource gets a
    Blocked-level cause, could not determine status. *)
Definition check_resources (client : Client) (resources : LightkubeResourcesType)
    : M (bool * list (option ErrorWithStatus)) :=
  errors <- check_each client resources;;
  ret (forallb is_none errors, errors).

(** ** [lightkube/utilities/_manifest_charm_extension.py] *)

(** [KubernetesResourceHandler.__init__(self, charm)]: the object it builds
    has no client yet and no [app_name]. *)
Definition KubernetesResourceHandler_init (charm : Charm) : Handler :=
  {| _charm := charm;
     log := if charm_has_log charm then CharmLog else ModuleLog;
     _lightkube_client := None;
     app_name := None |}.

(** What reading [self.app_name] raises on an object without the attribute. *)
Definition missing_app_name : Exc :=
  OtherExc "AttributeError"
    "'KubernetesResourceHandler' object has no attribute 'app_name'".

(** The [lightkube_client] property: the client is built on first use, with
    [self.app_name] as field manager, and kept; reading [self.app_name] raises
    when the object has no such attribute. *)
Definition lightkube_client : M Client :=
  fun w =>
    let h := handler w in
    match _lightkube_client h with
    | None =>
        match app_name h with
        | None => (Raise missing_app_name, w)
        | Some name =>
            let c := mkClient name in
            (Ok c, mkWorld (mkHandler (_charm h) (log h) (Some c) (app_name h))
                           (cluster w) (trace w))
        end
    | Some c => (Ok c, w)
    end.

(** The setter of [lightkube_client]: [value] is a client ([inl]) or any other
    object ([inr]). *)
Definition set_lightkube_client (value : Client + PyVal) : M unit :=
  match value with
  | inl c =>
      fun w =>
        let h := handler w in
        (Ok tt, mkWorld (mkHandler (_charm h) (log h) (Some c) (app_name h))
                        (cluster w) (trace w))
  | inr _ => raise (OtherExc "ValueError" "lightkube_client must be a lightkube.Client")
  end.

(** The [template_files] property. *)
Definition template_files : M (list string) :=
  h <- get_handler;; ret (charm_template_files (_charm h)).

(** The loop of [render_manifests] over the template files. *)
Fixpoint render_parts (context : list (string * PyVal)) (files : list string)
    (manifest_parts : list string) : M (list string) :=
  match files with
  | [] => ret manifest_parts
  | template_file :: rest =>
      log_debug ("Rendering manifest for " +:+ template_file);;
      emit (EvReadText template_file);;
      text <- lift (read_text env template_file);;
      emit (EvTemplateRender text);;
      rendered_template <- lift (template_render env text context);;
      log_debug ("Rendered manifest:" +:+ nl +:+ rendered_template);;
      render_parts context rest (manifest_parts ++ [rendered_template])
  end.

(** [render_manifests(self)] *)
Definition render_manifests : M LightkubeResourcesType :=
  log_info "Rendering manifests";;
  h <- get_handler;;
  let context := context_for_render (_charm h) in
  log_debug ("Rendering with context: " +:+ format_context env context);;
  files <- template_files;;
  manifest_parts <- render_parts context files [];;
  let text := String.concat (nl +:+ "---" +:+ nl) manifest_parts in
  emit (EvLoadAllYaml text);;
  lift (load_all_yaml env text).

(** The loop of [resource_status] that logs every error: [i] counts from 0 as
    [enumerate] does, [n] is [len(errors)]. *)
Fixpoint log_issues (i n : nat) (errors : list ErrorWithStatus) : M unit :=
  match errors with
  | [] => ret tt
  | error :: rest =>
      log_info ("Issue " +:+ pretty (i + 1) +:+ "/" +:+ pretty n +:+ ": " +:+ msg error);;
      log_issues (S i) n rest
  end.

(** [resource_status(self, resources=None)] *)
Definition resource_status (resources : option LightkubeResourcesType) : M Status :=
  log_info "Computing status";;
  h <- get_handler;;
  early <- try_except
             (lift (is_leader (_charm h) true);; ret None)
             (except_LeadershipError (fun e => ret (Some (status e))));;
  match early with
  | Some st => ret st
  | None =>
      resources <- match resources with
                   | None => render_manifests
                   | Some rs => ret rs
                   end;;
      client <- lightkube_client;;
      checked <- check_resources client resources;;
      let '(charm_ok, errors) := checked in
      if charm_ok : bool then
        log_info "Status: active";;
        ret (new_status ActiveStatus "")
      else
        log_info "Charm is not active due to one or more issues:";;
        let errors := omap id errors in
        log_issues 0 (length errors) errors;;
        ret (status (get_first_worst_error errors))
  end.

(** The message of the [ReconcileError] raised on a 403. *)
Definition missing_trust_msg : string :=
  "Cannot create required resources.  Charm may be missing `--trust`".

(** [self.lightkube_client.apply_many(resources)] *)
Definition apply_many (client : Client) (resources : LightkubeResourcesType) : M unit :=
  fun w =>
    let '(c', failure) := client_apply_many env (cluster w) resources in
    (match failure with None => Ok tt | Some e => Raise e end,
     mkWorld (handler w) c' (trace w ++ [EvClient (CallApplyMany resources)])).

(** [reconcile_resources(self, resources=None)] *)
Definition reconcile_resources (resources : option LightkubeResourcesType) : M unit :=
  log_info "Reconciling";;
  resources <- match resources with
               | None => render_manifests
               | Some rs => ret rs
               end;;
  log_debug ("Applying " +:+ pretty (length resources) +:+ " resources");;
  try_except
    (client <- lightkube_client;;
     apply_many client resources)
    (except_ApiError (fun e code =>
       if (code =? 403)%Z then
         log_error
           ("Received Forbidden (403) error from lightkube when creating resources.  "
            +:+ "This may be due to the charm lacking permissions to create cluster-scoped "
            +:+ "roles and resources.  Charm must be deployed with `--trust`");;
         log_error ("Error received: " +:+ exc_str e);;
         raise (StatusExc (new_ReconcileError (PyStr missing_trust_msg) BlockedStatus))
       else
         raise e));;
  log_info "Reconcile completed successfully".

End Handler.

(** ** Reading a trace *)

(** The client calls among some events, in order. *)
Definition client_calls (evs : list Event) : list ClientCall :=
  omap (fun ev => match ev with EvClient call => Some call | _ => None end) evs.

(** The events other than log lines: the calls to the rendering collaborators
    (file system, template engine, codecs) and to the cluster client. *)
Definition collaborator_calls (evs : list Event) : list Event :=
  omap (fun ev => match ev with EvLog _ _ => None | _ => Some ev end) evs.

(** The lines [resource_status] logs for a list of errors. *)
Definition issue_lines (errors : list ErrorWithStatus) : list string :=
  imap (fun i error =>
          "Issue " +:+ pretty (i + 1) +:+ "/" +:+ pretty (length errors) +:+ ": "
          +:+ msg error) errors.

(** The entry [check_each] records for a resource, as a function of what the
    cluster reader answers (it follows the spec-modelled checks above). *)
Definition check_outcome (env : Collaborators) (c : Cluster)
    (r : LightkubeResourceType) : option ErrorWithStatus :=
  match client_get env c (resource_id r) with
  | Raise _ => Some (undetermined r)
  | Ok None =>
      Some (new_ErrorWithStatus
              (PyStr (resource_name r +:+ ": not found")) WaitingStatus)
  | Ok (Some obj) =>
      match readiness env r obj with
      | None => None
      | Some missing =>
          Some (new_ErrorWithStatus
                  (PyStr (resource_name r +:+ ": " +:+ missing)) WaitingStatus)
      end
  end.

(** The reads [check_each] issues for a list of resources. *)
Definition get_events (resources : LightkubeResourcesType) : list Event :=
  (fun r => EvClient (CallGet (resource_id r))) <$> resources.

(** ** A small cluster to run the handler against *)

Definition resource_spec (r : LightkubeResourceType) : string :=
  match r with
  | NamespacedResource _ _ _ s => s
  | GlobalResource _ _ s => s
  end.

(** Create or update one object: the cluster holds the applied specification
    and reports the object ready. *)
Definition upsert (c : Cluster) (r : LightkubeResourceType) : Cluster :=
  <[resource_id r := mkLiveObject (resource_spec r) "Ready"]> c.

(** Collaborators over a cluster whose writer either applies every resource by
    [upsert] or refuses with [refusal], and whose reader cannot reach the
    objects listed in [unreachable]. *)
Definition simple_env (refusal : option Exc) (unreachable : list ResourceId)
    : Collaborators :=
  {| read_text := fun path => Ok path;
     template_render := fun text _ => Ok text;
     load_all_yaml := fun _ => Ok [];
     format_context := fun _ => "{}";
     client_get := fun c id =>
       if bool_decide (id ∈ unreachable)
       then Raise (OtherExc "ConnectError" "connection refused")
       else Ok (c !! id);
     readiness := fun _ obj =>
       if String.eqb (live_status obj) "Ready" then None
       else Some ("status is " +:+ live_status obj);
     client_apply_many := fun c rs =>
       match refusal with
       | None => (foldl upsert c rs, None)
       | Some e => (c, Some e)
       end |}.

Definition leader_charm : Charm := mkCharm true false [] [].
Definition follower_charm : Charm := mkCharm false false [] [].

Definition web : LightkubeResourceType :=
  NamespacedResource "Deployment" "kubeflow" "web" "replicas: 2".
Definition api : LightkubeResourceType :=
  NamespacedResource "Service" "kubeflow" "api" "port: 80".
Definition role : LightkubeResourceType :=
  GlobalResource "ClusterRole" "admin" "rules: []".

(** A world with the handler of [charm] just built over cluster [c], as
    [__init__] leaves it: no client, no [app_name]. *)
Definition bare_world (charm : Charm) (c : Cluster) : World :=
  mkWorld (KubernetesResourceHandler_init charm) c [].

(** The same world once the caller gave the handler a client through the
    setter of [lightkube_client]. *)
Definition fresh_world (charm : Charm) (c : Cluster) : World :=
  (set_lightkube_client (inl (mkClient "app")) (bare_world charm c)).2.

(** ** The handler after its client was read *)

(** The client the [lightkube_client] property answers with: the one the
    handler holds, or one built from [app_name]; none when the handler has
    neither. *)
Definition client_of (h : Handler) : option Client :=
  match _lightkube_client h with
  | Some c => Some c
  | None => mkClient <$> app_name h
  end.

(** The handler once the property was read: the client, if there is one, is
    kept. *)
Definition with_client (h : Handler) : Handler :=
  match client_of h with
  | Some c => mkHandler (_charm h) (log h) (Some c) (app_name h)
  | None => h
  end.

(** What a reconcile pass leaves behind when [apply_many] was reached: the
    client is kept, the cluster is as the writer left it, and the trace has
    the lines up to the call, then [tail]. *)
Definition after_apply (w : World) (rs : LightkubeResourcesType) (c' : Cluster)
    (tail : list Event) : World :=
  mkWorld (with_client (handler w)) c'
    (trace w ++ [EvLog INFO "Reconciling";
                 EvLog DEBUG ("Applying " +:+ pretty (length rs) +:+ " resources");
                 EvClient (CallApplyMany rs)] ++ tail).

(** ** The methods that are not implemented *)

(** [on_install(self)]: [raise NotImplementedError()]. *)
Definition on_install : M unit := raise (OtherExc "NotImplementedError" "").

(** [on_update_status(self)]: [raise NotImplementedError()]. *)
Definition on_update_status : M unit := raise (OtherExc "NotImplementedError" "").

(** [_validate_charm(charm)]: [raise NotImplementedError()]; [__init__] has
    the call to it commented out. *)
Definition _validate_charm (charm : Charm) : M unit :=
  raise (OtherExc "NotImplementedError" "").

(** ** Rendering, seen from outside *)

(** The separator [render_manifests] joins the rendered templates with. *)
Definition manifest_separator : string := nl +:+ "---" +:+ nl.

(** The template files read among some events, in order. *)
Definition read_paths (evs : list Event) : list string :=
  omap (fun ev => match ev with EvReadText path => Some path | _ => None end) evs.

(** The texts handed to [codecs.load_all_yaml] among some events. *)
Definition yaml_loads (evs : list Event) : list string :=
  omap (fun ev => match ev with EvLoadAllYaml text => Some text | _ => None end) evs.

(** The lines logged at level [ERROR] among some events. *)
Definition error_lines (evs : list Event) : list string :=
  omap (fun ev => match ev with EvLog ERROR text => Some text | _ => None end) evs.

(** Template file [file] reads and renders to [rendered] in [context]. *)
Definition renders (env : Collaborators) (context : list (string * PyVal))
    (file rendered : string) : Prop :=
  ∃ text, read_text env file = Ok text
          ∧ template_render env text context = Ok rendered.

(** Template file [file] fails with [e], when read or when rendered. *)
Definition fails_to_render (env : Collaborators) (context : list (string * PyVal))
    (file : string) (e : Exc) : Prop :=
  read_text env file = Raise e
  ∨ ∃ text, read_text env file = Ok text
            ∧ template_render env text context = Raise e.

(** What the loop of [render_manifests] gives and the events it adds, as a
    function of the collaborators' answers alone. *)
Fixpoint render_parts_outcome (env : Collaborators) (context : list (string * PyVal))
    (files : list string) (manifest_parts : list string)
    : Result (list string) * list Event :=
  match files with
  | [] => (Ok manifest_parts, [])
  | template_file :: rest =>
      let opening := [EvLog DEBUG ("Rendering manifest for " +:+ template_file);
                      EvReadText template_file] in
      match read_text env template_file with
      | Raise e => (Raise e, opening)
      | Ok text =>
          match template_render env text context with
          | Raise e => (Raise e, opening ++ [EvTemplateRender text])
          | Ok rendered_template =>
              let out := render_parts_outcome env context rest
                           (manifest_parts ++ [rendered_template]) in
              (out.1,
               opening ++ EvTemplateRender text
                 :: EvLog DEBUG ("Rendered manifest:" +:+ nl +:+ rendered_template)
                 :: out.2)
          end
      end
  end.

(** What [render_manifests] gives and the events it adds for a charm. *)
Definition render_outcome (env : Collaborators) (charm : Charm)
    : Result LightkubeResourcesType * list Event :=
  let context := context_for_render charm in
  let opening := [EvLog INFO "Rendering manifests";
                  EvLog DEBUG ("Rendering with context: " +:+ format_context env context)] in
  let parts := render_parts_outcome env context (charm_template_files charm) [] in
  match parts.1 with
  | Raise e => (Raise e, opening ++ parts.2)
  | Ok manifest_parts =>
      let text := String.concat manifest_separator manifest_parts in
      (load_all_yaml env text, opening ++ parts.2 ++ [EvLoadAllYaml text])
  end.

(** Rendering logs and reads, renders and loads; it makes no client call and
    logs nothing at level [ERROR]. *)
Definition is_render_event (ev : Event) : Prop :=
  match ev with
  | EvLog DEBUG _ => True
  | EvLog INFO text => text = "Rendering manifests"
  | EvLog ERROR _ => False
  | EvReadText _ | EvTemplateRender _ | EvLoadAllYaml _ => True
  | EvClient _ => False
  end.

(** ** A small template directory *)

(** Collaborators over template files that read as their own path between
    angle brackets, except those in [missing], which cannot be read; every
    template renders to itself and the codec answers [resources]; the cluster
    side is that of [simple_env]. *)
Definition template_env (missing : list string) (resources : LightkubeResourcesType)
    (refusal : option Exc) : Collaborators :=
  let base := simple_env refusal [] in
  {| read_text := fun path =>
       if bool_decide (path ∈ missing)
       then Raise (OtherExc "FileNotFoundError" path)
       else Ok ("<" +:+ path +:+ ">");
     template_render := fun text _ => Ok text;
     load_all_yaml := fun _ => Ok resources;
     format_context := format_context base;
     client_get := client_get base;
     readiness := readiness base;
     client_apply_many := client_apply_many base |}.

(** A leader whose manifests come from two template files. *)
Definition templated_charm : Charm :=
  mkCharm true false [("name", PyStr "web")] ["web.yaml.j2"; "role.yaml.j2"].

(** The same charm on a unit that is not the leader. *)
Definition templated_follower : Charm :=
  mkCharm false false [("name", PyStr "web")] ["web.yaml.j2"; "role.yaml.j2"].

(** ** Applying, seen from outside *)

Definition forbidden_line : string :=
  "Received Forbidden (403) error from lightkube when creating resources.  "
  +:+ "This may be due to the charm lacking permissions to create cluster-scoped "
  +:+ "roles and resources.  Charm must be deployed with `--trust`".

Definition completed_line : string := "Reconcile completed successfully".

(** What [reconcile_resources] does once it has its resources, as a function
    of the cluster and of what the writer answers: how the pass ends, the
    cluster it leaves, and the events from the count of the resources on. *)
Definition apply_outcome (env : Collaborators) (c : Cluster)
    (rs : LightkubeResourcesType) : Result unit * Cluster * list Event :=
  let answer := client_apply_many env c rs in
  let opening := [EvLog DEBUG ("Applying " +:+ pretty (length rs) +:+ " resources");
                  EvClient (CallApplyMany rs)] in
  match answer.2 with
  | None => (Ok tt, answer.1, opening ++ [EvLog INFO completed_line])
  | Some (ApiError code text) =>
      if (code =? 403)%Z then
        (Raise (StatusExc (new_ReconcileError (PyStr missing_trust_msg) BlockedStatus)),
         answer.1,
         opening ++ [EvLog ERROR forbidden_line;
                     EvLog ERROR ("Error received: " +:+ text)])
      else (Raise (ApiError code text), answer.1, opening)
  | Some e => (Raise e, answer.1, opening)
  end.

(** ** Worlds that differ in who leads *)

(** The world [w] with the leadership of the charm's unit set to [b]. *)
Definition set_leader (b : bool) (w : World) : World :=
  let h := handler w in
  let charm := _charm h in
  mkWorld
    (mkHandler
       (mkCharm b (charm_has_log charm) (context_for_render charm)
          (charm_template_files charm))
       (log h) (_lightkube_client h) (app_name h))
    (cluster w) (trace w).

(** ** Two more cluster writers *)






(** * Properties *)

(** ** Status-bearing errors *)

(** C10.  [ErrorWithStatus(msg, T)] stores [str(msg)] both as the message of
    the exception and as its [msg] attribute, and its [status] is [T] applied
    to that same string, whatever kind of value [msg] is. *)
Theorem ErrorWithStatus_carries_message (m : PyVal) (T : CharmStatusType) :
  let e := new_ErrorWithStatus m T in
  exc_args e = [py_str m]
  ∧ exc_str (StatusExc e) = py_str m
  ∧ msg e = py_str m
  ∧ status e = new_status T (py_str m)
  ∧ status_class (status e) = T
  ∧ message (status e) = exc_str (StatusExc e).
Proof. by destruct m as [| [] | |]. Qed.

Example ErrorWithStatus_of_int :
  status (new_ErrorWithStatus (PyInt 403) BlockedStatus)
  = new_status BlockedStatus "403".
Proof. reflexivity. Qed.

(** C7, as the claim has it, fails: a [LeadershipError] built with another
    status type has a status of that type. *)
Lemma LeadershipError_status_can_be_blocked :
  status_class (status (new_LeadershipError None (Some BlockedStatus))) = BlockedStatus
  ∧ ¬ (∀ (m : option PyVal) (T : option CharmStatusType),
         status_class (status (new_LeadershipError m T)) = WaitingStatus).
Proof.
  split; [reflexivity|].
  intros H. specialize (H None (Some BlockedStatus)). discriminate H.
Qed.

(** C7, amended.  The status of a [LeadershipError] is of the type it was
    built with, which is [WaitingStatus] when the argument is left out, as in
    the error [is_leader] raises; that one reads Waiting for leadership. *)
Theorem LeadershipError_status_default_waiting (m : option PyVal)
    (T : option CharmStatusType) :
  status_class (status (new_LeadershipError m T)) = default WaitingStatus T
  ∧ status_class (status (new_LeadershipError m None)) = WaitingStatus
  ∧ status (new_LeadershipError None None)
    = new_status WaitingStatus "Waiting for leadership".
Proof. by destruct T. Qed.

(** ** The leadership check *)

(** C8, as the claim has it, fails: called with its default arguments on a
    charm whose unit is not the leader, [is_leader] raises. *)
Lemma is_leader_raises_by_default :
  is_leader follower_charm true = Raise (StatusExc (new_LeadershipError None None))
  ∧ is_leader follower_charm true ≠ Ok false.
Proof. split; [reflexivity | discriminate]. Qed.

(** C8, amended.  [is_leader] returns [True] for a leader; for a unit that
    is not the leader it returns [False] when called with
    [raise_if_not_leader=False], and with the default [True] it raises a
    [LeadershipError]. *)
Theorem is_leader_spec (charm : Charm) (raise_if_not_leader : bool) :
  is_leader charm raise_if_not_leader =
    if unit_is_leader charm then Ok true
    else if raise_if_not_leader
         then Raise (StatusExc (new_LeadershipError None None))
         else Ok false.
Proof. unfold is_leader. by destruct (unit_is_leader charm). Qed.

(** ** Running statements *)

Lemma app_cons_assoc {A} (l : list A) (x : A) (k : list A) :
  (l ++ [x]) ++ k = l ++ x :: k.
Proof. by rewrite <- app_assoc. Qed.

(** Unfolds the monad down to matches on the collaborators' answers. *)
Ltac run :=
  unfold bind, ret, raise, lift, emit, log_info, log_debug, log_error,
    get_handler, get_cluster, try_except; simpl.

(** Brings a trace built by successive appends into one append. *)
Ltac trace_norm := simpl; repeat rewrite <- List.app_assoc; simpl.

Section HandlerFacts.

Variable env : Collaborators.

(** For a unit that is not the leader the leadership gate of
    [resource_status] ends the pass. *)
Lemma resource_status_follower (resources : option LightkubeResourcesType) (w : World) :
  unit_is_leader (_charm (handler w)) = false →
  resource_status env resources w =
    (Ok (new_status WaitingStatus "Waiting for leadership"),
     mkWorld (handler w) (cluster w) (trace w ++ [EvLog INFO "Computing status"])).
Proof.
  intros Hl. unfold resource_status, is_leader. run. by rewrite Hl.
Qed.

(** C3.  When the unit is not the leader, [resource_status] returns a
    Waiting status and does not raise; the pass leaves handler and cluster as
    they were, and what it adds to the trace holds no call to the rendering
    collaborators nor to the cluster client (no read among them). *)
Theorem resource_status_not_leader (resources : option LightkubeResourcesType)
    (w : World) :
  unit_is_leader (_charm (handler w)) = false →
  ∃ st evs,
    resource_status env resources w
    = (Ok st, mkWorld (handler w) (cluster w) (trace w ++ evs))
    ∧ status_class st = WaitingStatus
    ∧ collaborator_calls evs = []
    ∧ client_calls evs = [].
Proof.
  intros Hl. eexists _, _. rewrite resource_status_follower by done.
  split; [reflexivity|]. done.
Qed.

Lemma lightkube_client_run (w : World) :
  lightkube_client w =
    match client_of (handler w) with
    | Some c => (Ok c, mkWorld (with_client (handler w)) (cluster w) (trace w))
    | None => (Raise missing_app_name, w)
    end.
Proof.
  destruct w as [[ch lg [c|] [name|]] cl tr]; reflexivity.
Qed.

(** The property's answer when the handler has a client to give. *)
Lemma lightkube_client_ready (w : World) (client : Client) :
  client_of (handler w) = Some client →
  lightkube_client w
  = (Ok client, mkWorld (with_client (handler w)) (cluster w) (trace w)).
Proof. intros Hc. by rewrite lightkube_client_run, Hc. Qed.

(** ** Reconciling *)

(** The three ways a pass over given resources ends once the handler gave
    its client, by what the writer answers. *)
Lemma reconcile_resources_run (rs : LightkubeResourcesType) (w : World)
    (client : Client) :
  client_of (handler w) = Some client →
  reconcile_resources env (Some rs) w =
    let '(c', failure) := client_apply_many env (cluster w) rs in
    match failure with
    | None =>
        (Ok tt, after_apply w rs c' [EvLog INFO "Reconcile completed successfully"])
    | Some (ApiError code text) =>
        if (code =? 403)%Z then
          (Raise (StatusExc (new_ReconcileError (PyStr missing_trust_msg) BlockedStatus)),
           after_apply w rs c'
             [EvLog ERROR
                ("Received Forbidden (403) error from lightkube when creating resources.  "
                 +:+ "This may be due to the charm lacking permissions to create cluster-scoped "
                 +:+ "roles and resources.  Charm must be deployed with `--trust`");
              EvLog ERROR ("Error received: " +:+ text)])
        else (Raise (ApiError code text), after_apply w rs c' [])
    | Some e => (Raise e, after_apply w rs c' [])
    end.
Proof.
  intros Hclient. unfold reconcile_resources, after_apply. run.
  rewrite (lightkube_client_ready _ client) by done. unfold apply_many. simpl.
  destruct (client_apply_many env (cluster w) rs) as [c' [e|]]; simpl.
  - destruct e as [e'|code text|cl text]; simpl.
    + by trace_norm.
    + destruct (code =? 403)%Z; simpl; by trace_norm.
    + by trace_norm.
  - unfold emit; simpl. by trace_norm.
Qed.

(** A pass over given resources on a handler that has no client to give ends
    where the property is read. *)
Lemma reconcile_resources_no_client (rs : LightkubeResourcesType) (w : World) :
  client_of (handler w) = None →
  reconcile_resources env (Some rs) w =
    (Raise missing_app_name,
     mkWorld (handler w) (cluster w)
       (trace w ++ [EvLog INFO "Reconciling";
                    EvLog DEBUG ("Applying " +:+ pretty (length rs) +:+ " resources")])).
Proof.
  intros Hclient. unfold reconcile_resources. run.
  rewrite lightkube_client_run. simpl. rewrite Hclient. by trace_norm.
Qed.

(** C2.  When [apply_many], called on the handler's client, fails with an
    [ApiError]: if its code is 403, [reconcile_resources] raises a
    [ReconcileError] whose status is Blocked with the fixed, non-empty message
    [missing_trust_msg]; with any other code it raises the very error it
    caught. *)
Theorem reconcile_resources_api_error (rs : LightkubeResourcesType) (w : World)
    (client : Client) (code : Z) (text : string) (c' : Cluster) :
  client_of (handler w) = Some client →
  client_apply_many env (cluster w) rs = (c', Some (ApiError code text)) →
  (code = 403%Z →
     ∃ e w', reconcile_resources env (Some rs) w = (Raise (StatusExc e), w')
       ∧ exc_class e = ClsReconcileError
       ∧ status e = new_status BlockedStatus missing_trust_msg
       ∧ missing_trust_msg ≠ "")
  ∧ (code ≠ 403%Z →
     ∃ w', reconcile_resources env (Some rs) w = (Raise (ApiError code text), w')).
Proof.
  intros Hclient Hw. rewrite (reconcile_resources_run _ _ client), Hw by done. split.
  - intros ->. simpl. eexists _, _. split; [reflexivity|]. done.
  - intros Hne. apply Z.eqb_neq in Hne. rewrite Hne. by eexists.
Qed.







(** ** The severity model *)



Lemma severity_healthy (T : CharmStatusType) : severity T = 0 ↔ T = ActiveStatus.
Proof. by destruct T. Qed.

(** The scan never ends on something milder than what it started from. *)
Lemma first_worst_from_ge (errors : list ErrorWithStatus) (best : ErrorWithStatus) :
  severity (status_type best)
  ≤ severity (status_type (first_worst_from best errors)).
Proof.
  revert best. induction errors as [|error rest IH]; intros best; simpl; [lia|].
  destruct (Nat.ltb_spec (severity (status_type best)) (severity (status_type error)))
    as [Hlt|Hge].
  - specialize (IH error). lia.
  - apply IH.
Qed.

(** The scan ends on an element of the sequence: those before it are strictly
    milder, those after it are no more severe. *)
Lemma first_worst_from_split (errors : list ErrorWithStatus) (best : ErrorWithStatus) :
  let worst := first_worst_from best errors in
  ∃ pre post,
    best :: errors = pre ++ worst :: post
    ∧ Forall (λ e, severity (status_type e) < severity (status_type worst)) pre
    ∧ Forall (λ e, severity (status_type e) ≤ severity (status_type worst)) post.
Proof.
  revert best. induction errors as [|error rest IH]; intros best; simpl.
  - exists [], []. by repeat split.
  - destruct (Nat.ltb_spec (severity (status_type best)) (severity (status_type error)))
      as [Hlt|Hge].
    + destruct (IH error) as (pre & post & Heq & Hpre & Hpost).
      exists (best :: pre), post. rewrite Heq.
      split; [done|]. split; [|done]. constructor; [|done].
      pose proof (first_worst_from_ge rest error). lia.
    + destruct (IH best) as (pre & post & Heq & Hpre & Hpost).
      simpl in *. remember (first_worst_from best rest) as worst eqn:Hw.
      clear Hw IH. destruct pre as [|b pre]; simpl in Heq.
      * injection Heq as <- <-. exists [], (error :: rest).
        split; [done|]. split; [done|]. by constructor.
      * injection Heq as <- ->.
        exists (best :: error :: pre), post.
        split; [done|]. split; [|done].
        apply Forall_cons in Hpre as [Hbest Hpre].
        constructor; [done|]. constructor; [lia|done].
Qed.

(** The worst error is at least as severe as every error of the sequence. *)
Lemma get_first_worst_error_max (errors : list ErrorWithStatus) (e : ErrorWithStatus) :
  e ∈ errors →
  severity (status_type e) ≤ severity (status_type (get_first_worst_error errors)).
Proof.
  destruct errors as [|error rest]; [by intros ?%elem_of_nil|].
  intros Hin. simpl.
  destruct (first_worst_from_split rest error) as (pre & post & Heq & Hpre & Hpost).
  simpl in *. rewrite Heq in Hin.
  apply elem_of_app in Hin as [Hin|Hin].
  - rewrite Forall_forall in Hpre. specialize (Hpre _ Hin). lia.
  - apply elem_of_cons in Hin as [->|Hin]; [lia|].
    rewrite Forall_forall in Hpost. by apply Hpost.
Qed.

(** It is Healthy exactly when there is nothing but Healthy in the sequence. *)
Lemma get_first_worst_error_healthy (errors : list ErrorWithStatus) :
  status_type (get_first_worst_error errors) = ActiveStatus
  ↔ errors = [] ∨ Forall (λ e, status_type e = ActiveStatus) errors.
Proof.
  split.
  - intros Hh. right. apply Forall_forall. intros e Hin.
    apply get_first_worst_error_max in Hin. rewrite Hh in Hin. simpl in Hin.
    apply severity_healthy. lia.
  - intros [->|Hall]; [done|].
    destruct errors as [|error rest]; [done|]. simpl.
    destruct (first_worst_from_split rest error) as (pre & post & Heq & _).
    simpl in Heq. rewrite Forall_forall in Hall. apply Hall.
    rewrite Heq. apply elem_of_app. right. apply elem_of_cons. by left.
Qed.

(** ** Checking the resources *)

(** The check of one resource reads the cluster once; it raises when the
    lookup does and otherwise gives the entry [check_outcome] describes. *)
Lemma check_resource_run (client : Client) (r : LightkubeResourceType) (w : World) :
  check_resource env client r w =
    (match client_get env (cluster w) (resource_id r) with
     | Raise e => Raise e
     | Ok _ => Ok (check_outcome env (cluster w) r)
     end,
     mkWorld (handler w) (cluster w)
       (trace w ++ [EvClient (CallGet (resource_id r))])).
Proof.
  unfold check_resource, check_outcome. run.
  destruct (client_get env (cluster w) (resource_id r)) as [[obj|]|e]; try done.
  by destruct (readiness env r obj).
Qed.

(** The checks of a list of resources never raise: they give one entry per
    resource, in order, and only read. *)
Lemma check_each_run (client : Client) (rs : LightkubeResourcesType) (w : World) :
  check_each env client rs w =
    (Ok (check_outcome env (cluster w) <$> rs),
     mkWorld (handler w) (cluster w) (trace w ++ get_events rs)).
Proof.
  revert w. induction rs as [|r rs IH]; intros w.
  - destruct w. simpl. unfold ret. by rewrite app_nil_r.
  - simpl. unfold bind at 1. unfold try_except. rewrite check_resource_run.
    destruct (client_get env (cluster w) (resource_id r)) as [found|e] eqn:Hget;
      unfold bind, ret; rewrite IH; simpl.
    + by trace_norm.
    + unfold check_outcome at 2. rewrite Hget. by trace_norm.
Qed.

Lemma check_resources_run (client : Client) (rs : LightkubeResourcesType) (w : World) :
  check_resources env client rs w =
    (Ok (forallb is_none (check_outcome env (cluster w) <$> rs),
         check_outcome env (cluster w) <$> rs),
     mkWorld (handler w) (cluster w) (trace w ++ get_events rs)).
Proof. unfold check_resources, bind. by rewrite check_each_run. Qed.

(** The loop over the errors logs one line each, numbered from [i + 1]. *)
Lemma log_issues_run (errors : list ErrorWithStatus) (i n : nat) (w : World) :
  log_issues i n errors w =
    (Ok tt,
     mkWorld (handler w) (cluster w)
       (trace w ++ (EvLog INFO <$>
          imap (λ j error, "Issue " +:+ pretty (i + j + 1) +:+ "/" +:+ pretty n
                           +:+ ": " +:+ msg error) errors))).
Proof.
  revert i w. induction errors as [|error rest IH]; intros i w.
  - destruct w. simpl. unfold ret. by rewrite app_nil_r.
  - simpl. run. rewrite IH. simpl. rewrite Nat.add_0_r.
    rewrite app_cons_assoc. do 5 f_equal.
    apply imap_ext. intros j e _. simpl. by replace (i + S j + 1) with (S (i + j + 1)) by lia.
Qed.

(** A pass of [resource_status] for a leader over given resources, on a
    handler that has a client to give: Active when no resource has an entry,
    and otherwise the status of the first worst of the errors, every one of
    which is logged. *)
Lemma resource_status_leader (rs : LightkubeResourcesType) (w : World) :
  unit_is_leader (_charm (handler w)) = true →
  is_Some (client_of (handler w)) →
  resource_status env (Some rs) w =
    let errors := check_outcome env (cluster w) <$> rs in
    let causes := omap id errors in
    let checked := trace w ++ EvLog INFO "Computing status" :: get_events rs in
    if forallb is_none errors then
      (Ok (new_status ActiveStatus ""),
       mkWorld (with_client (handler w)) (cluster w)
         (checked ++ [EvLog INFO "Status: active"]))
    else
      (Ok (status (get_first_worst_error causes)),
       mkWorld (with_client (handler w)) (cluster w)
         (checked ++ EvLog INFO "Charm is not active due to one or more issues:"
                  :: (EvLog INFO <$> issue_lines causes))).
Proof.
  intros Hl [client Hclient]. unfold resource_status, is_leader. run.
  rewrite Hl. simpl.
  rewrite (lightkube_client_ready _ client) by done. simpl.
  rewrite check_resources_run. simpl.
  destruct (forallb is_none (check_outcome env (cluster w) <$> rs)).
  - by trace_norm.
  - rewrite log_issues_run. simpl. unfold issue_lines. by trace_norm.
Qed.

(** No entry is an error exactly when the list of causes is empty. *)
Lemma forallb_is_none_causes (errors : list (option ErrorWithStatus)) :
  forallb is_none errors = true ↔ omap id errors = [].
Proof.
  induction errors as [|[e|] errors IH]; simpl; [done| |done].
  split; discriminate.
Qed.



(** C9.  For a leader all of whose resources are found ready by the checks
    made with the handler's client, the checks report all well with no error
    to list, and [resource_status] returns Active with an empty message; the
    pass logs no issue. *)
Theorem resource_status_all_ready (rs : LightkubeResourcesType) (w : World)
    (client : Client) :
  unit_is_leader (_charm (handler w)) = true →
  client_of (handler w) = Some client →
  (∀ r, r ∈ rs →
     ∃ obj, client_get env (cluster w) (resource_id r) = Ok (Some obj)
            ∧ readiness env r obj = None) →
  ∃ errors w1 w',
    check_resources env client rs w = (Ok (true, errors), w1)
    ∧ omap id errors = []
    ∧ resource_status env (Some rs) w = (Ok (new_status ActiveStatus ""), w')
    ∧ trace w' = trace w ++ EvLog INFO "Computing status"
                   :: get_events rs ++ [EvLog INFO "Status: active"].
Proof.
  intros Hl Hclient Hready.
  assert (Hall : forallb is_none (check_outcome env (cluster w) <$> rs) = true).
  { clear Hl. induction rs as [|r rs IH]; [done|]. simpl.
    destruct (Hready r) as (obj & Hget & Hok); [by left|].
    unfold check_outcome at 1. rewrite Hget, Hok. simpl.
    apply IH. intros r' Hr'. apply Hready. by right. }
  rewrite check_resources_run, resource_status_leader by (done || by eexists).
  simpl. rewrite Hall. eexists _, _, _.
  split; [reflexivity|]. split; [by apply forallb_is_none_causes|].
  split; [reflexivity|]. by trace_norm.
Qed.

(** C1.  The first worst error of a sequence is Healthy exactly when the
    sequence is empty or all Healthy.  Otherwise it is an element of the
    sequence at least as severe as every other, and the first such: what comes
    before it is strictly milder.  In the report of a leader's pass that ran
    the checks, with the handler's client, and found errors, the status is
    that of the first worst of them, and every one of them is logged, in
    order. *)
Theorem get_first_worst_error_spec (errors : list ErrorWithStatus) :
  let worst := get_first_worst_error errors in
  (status_type worst = ActiveStatus
   ↔ errors = [] ∨ Forall (λ e, status_type e = ActiveStatus) errors)
  ∧ (¬ (errors = [] ∨ Forall (λ e, status_type e = ActiveStatus) errors) →
     (∀ e, e ∈ errors →
           severity (status_type e) ≤ severity (status_type worst))
     ∧ ∃ pre post,
         errors = pre ++ worst :: post
         ∧ Forall (λ e, severity (status_type e) < severity (status_type worst)) pre
         ∧ Forall (λ e, severity (status_type e) ≤ severity (status_type worst)) post)
  ∧ (∀ rs w,
       unit_is_leader (_charm (handler w)) = true →
       is_Some (client_of (handler w)) →
       omap id (check_outcome env (cluster w) <$> rs) = errors →
       errors ≠ [] →
       ∃ w', resource_status env (Some rs) w = (Ok (status worst), w')
             ∧ trace w' =
                 trace w ++ EvLog INFO "Computing status" :: get_events rs
                 ++ EvLog INFO "Charm is not active due to one or more issues:"
                 :: (EvLog INFO <$> issue_lines errors)
             ∧ ∀ i e, errors !! i = Some e →
                 issue_lines errors !! i
                 = Some ("Issue " +:+ pretty (i + 1) +:+ "/"
                         +:+ pretty (length errors) +:+ ": " +:+ msg e)).
Proof.
  intros worst. split; [apply get_first_worst_error_healthy|]. split.
  - intros Hnot. split; [intros e; apply get_first_worst_error_max|].
    destruct errors as [|error rest]; [by destruct Hnot; left|].
    apply (first_worst_from_split rest error).
  - intros rs w Hl Hclient Hcauses Hne.
    rewrite resource_status_leader by done. simpl.
    destruct (forallb is_none (check_outcome env (cluster w) <$> rs)) eqn:Hall.
    { apply forallb_is_none_causes in Hall. congruence. }
    rewrite Hcauses. eexists. split; [reflexivity|].
    split; [by trace_norm|].
    intros i e Hi. unfold issue_lines. by rewrite list_lookup_imap, Hi.
Qed.

End HandlerFacts.

(** ** The writer of the small cluster *)





(** ** The theorems at work on the small cluster *)

Lemma resource_status_not_leader_witness :
  ∃ st evs,
    resource_status (simple_env None []) (Some [web]) (fresh_world follower_charm ∅)
    = (Ok st, mkWorld (handler (fresh_world follower_charm ∅)) ∅ ([] ++ evs))
    ∧ status_class st = WaitingStatus
    ∧ collaborator_calls evs = []
    ∧ client_calls evs = [].
Proof.
  apply (resource_status_not_leader (simple_env None []) (Some [web])
           (fresh_world follower_charm ∅)).
  reflexivity.
Defined.

Lemma reconcile_resources_api_error_witness :
  (∃ e w',
     reconcile_resources (simple_env (Some (ApiError 403 "Forbidden")) []) (Some [web; role])
       (fresh_world leader_charm ∅) = (Raise (StatusExc e), w')
     ∧ exc_class e = ClsReconcileError
     ∧ status e = new_status BlockedStatus missing_trust_msg
     ∧ missing_trust_msg ≠ "")
  ∧ (∃ w',
     reconcile_resources (simple_env (Some (ApiError 500 "Internal error")) []) (Some [web; role])
       (fresh_world leader_charm ∅) = (Raise (ApiError 500 "Internal error"), w')).
Proof.
  split.
  - apply (reconcile_resources_api_error
             (simple_env (Some (ApiError 403 "Forbidden")) []) [web; role]
             (fresh_world leader_charm ∅) (mkClient "app") 403 "Forbidden" ∅);
      reflexivity.
  - apply (reconcile_resources_api_error
             (simple_env (Some (ApiError 500 "Internal error")) []) [web; role]
             (fresh_world leader_charm ∅) (mkClient "app") 500 "Internal error" ∅);
      [reflexivity | reflexivity | discriminate].
Defined.



Lemma resource_status_all_ready_witness :
  let env := simple_env None [] in
  let w := fresh_world leader_charm (foldl upsert ∅ [web; role]) in
  ∃ errors w1 w',
    check_resources env (mkClient "app") [web; role] w = (Ok (true, errors), w1)
    ∧ omap id errors = []
    ∧ resource_status env (Some [web; role]) w = (Ok (new_status ActiveStatus ""), w')
    ∧ trace w' = trace w ++ EvLog INFO "Computing status"
                   :: get_events [web; role] ++ [EvLog INFO "Status: active"].
Proof.
  intros env w.
  apply (resource_status_all_ready env [web; role] w (mkClient "app")).
  - reflexivity.
  - reflexivity.
  - intros r Hr.
    apply elem_of_cons in Hr as [->|Hr];
      [| apply elem_of_cons in Hr as [->|Hr]; [| by apply elem_of_nil in Hr]];
      eexists; split; vm_compute; reflexivity.
Defined.

Lemma get_first_worst_error_spec_witness :
  let env := simple_env None [resource_id api; resource_id role] in
  let w := fresh_world leader_charm ∅ in
  let errors :=
    [new_ErrorWithStatus (PyStr "web: not found") WaitingStatus;
     undetermined api; undetermined role] in
  let worst := get_first_worst_error errors in
  worst = undetermined api
  ∧ (∃ pre post,
       errors = pre ++ worst :: post
       ∧ Forall (λ e, severity (status_type e) < severity (status_type worst)) pre
       ∧ Forall (λ e, severity (status_type e) ≤ severity (status_type worst)) post)
  ∧ (∃ w', resource_status env (Some [web; api; role]) w = (Ok (status worst), w')
           ∧ trace w' =
               trace w ++ EvLog INFO "Computing status" :: get_events [web; api; role]
               ++ EvLog INFO "Charm is not active due to one or more issues:"
               :: (EvLog INFO <$> issue_lines errors)
           ∧ ∀ i e, errors !! i = Some e →
               issue_lines errors !! i
               = Some ("Issue " +:+ pretty (i + 1) +:+ "/"
                       +:+ pretty (length errors) +:+ ": " +:+ msg e)).
Proof.
  intros env w errors worst.
  destruct (get_first_worst_error_spec env errors) as (_ & Hmax & Hreport).
  split; [reflexivity|]. split.
  - apply Hmax. intros [Hnil|Hall]; [discriminate|].
    apply Forall_cons in Hall as [Hweb _]. discriminate.
  - apply (Hreport [web; api; role] w);
      [reflexivity | by eexists | reflexivity | discriminate].
Defined.

Example get_first_worst_error_first_of_equals :
  get_first_worst_error
    [new_ErrorWithStatus (PyStr "a") WaitingStatus;
     new_ErrorWithStatus (PyStr "b") MaintenanceStatus;
     new_ErrorWithStatus (PyStr "c") MaintenanceStatus;
     new_ErrorWithStatus (PyStr "d") WaitingStatus]
  = new_ErrorWithStatus (PyStr "b") MaintenanceStatus.
Proof. reflexivity. Qed.

(** A reconcile pass refused with a 403: the two error lines are logged after
    the call, and nothing in the cluster changes. *)
Example reconcile_resources_forbidden_run :
  let w := fresh_world leader_charm ∅ in
  let out := reconcile_resources (simple_env (Some (ApiError 403 "Forbidden")) [])
               (Some [web]) w in
  out.1 = Raise (StatusExc (new_ReconcileError (PyStr missing_trust_msg) BlockedStatus))
  ∧ cluster out.2 = ∅
  ∧ client_calls (trace out.2) = [CallApplyMany [web]]
  ∧ last (trace out.2) = Some (EvLog ERROR "Error received: Forbidden").
Proof.
  intros w out. unfold out.
  by rewrite (reconcile_resources_run _ _ _ (mkClient "app")).
Qed.

(** A status pass of a leader over a cluster that lacks one resource. *)
Example resource_status_waiting_run :
  let w := fresh_world leader_charm (upsert ∅ web) in
  let out := resource_status (simple_env None []) (Some [web; api]) w in
  out.1 = Ok (new_status WaitingStatus "api: not found")
  ∧ trace out.2 =
      [EvLog INFO "Computing status";
       EvClient (CallGet (resource_id web));
       EvClient (CallGet (resource_id api));
       EvLog INFO "Charm is not active due to one or more issues:";
       EvLog INFO "Issue 1/1: api: not found"].
Proof. by vm_compute. Qed.

(** * Further properties of the handler *)

Section RenderingFacts.

Variable env : Collaborators.

(** The loop of [render_manifests] gives what [render_parts_outcome]
    computes, and touches neither handler nor cluster. *)
Lemma render_parts_run (context : list (string * PyVal)) (files parts : list string)
    (w : World) :
  render_parts env context files parts w =
    ((render_parts_outcome env context files parts).1,
     mkWorld (handler w) (cluster w)
       (trace w ++ (render_parts_outcome env context files parts).2)).
Proof.
  revert parts w. induction files as [|f files IH]; intros parts w.
  - destruct w. simpl. unfold ret. by rewrite app_nil_r.
  - simpl. run.
    destruct (read_text env f) as [text|e]; simpl; [|by trace_norm].
    destruct (template_render env text context) as [r|e]; simpl; [|by trace_norm].
    rewrite IH. simpl. by trace_norm.
Qed.

Lemma render_manifests_run (w : World) :
  render_manifests env w =
    ((render_outcome env (_charm (handler w))).1,
     mkWorld (handler w) (cluster w)
       (trace w ++ (render_outcome env (_charm (handler w))).2)).
Proof.
  unfold render_manifests, render_outcome, template_files. run.
  rewrite render_parts_run. simpl.
  destruct (render_parts_outcome env _ _ []) as [[parts|e] evs]; simpl.
  - unfold manifest_separator. by trace_norm.
  - by trace_norm.
Qed.


Lemma render_parts_outcome_events (context : list (string * PyVal))
    (files parts : list string) :
  Forall is_render_event (render_parts_outcome env context files parts).2.
Proof.
  revert parts. induction files as [|f files IH]; intros parts; simpl; [done|].
  destruct (read_text env f) as [text|e]; simpl; [|by repeat constructor].
  destruct (template_render env text context) as [r|e]; simpl;
    [|by repeat constructor].
  repeat (constructor; [done|]). apply IH.
Qed.

Lemma render_outcome_events (charm : Charm) :
  Forall is_render_event (render_outcome env charm).2.
Proof.
  unfold render_outcome. simpl.
  pose proof (render_parts_outcome_events (context_for_render charm)
                (charm_template_files charm) []) as Hparts.
  destruct (render_parts_outcome env _ _ []) as [[parts|e] evs]; simpl in *;
    repeat (constructor; [done|]); [|done].
  apply Forall_app. split; [done|]. by repeat constructor.
Qed.

Lemma render_events_no_client_calls (evs : list Event) :
  Forall is_render_event evs → client_calls evs = [] ∧ error_lines evs = [].
Proof.
  induction 1 as [|ev evs Hev _ [IH1 IH2]]; [done|].
  unfold client_calls, error_lines in *.
  destruct ev as [[] text| | | |]; simpl in *; by rewrite ?IH1, ?IH2.
Qed.

Lemma read_paths_cons (ev : Event) (evs : list Event) :
  read_paths (ev :: evs) =
    match ev with
    | EvReadText path => path :: read_paths evs
    | _ => read_paths evs
    end.
Proof. by destruct ev. Qed.

Lemma yaml_loads_cons (ev : Event) (evs : list Event) :
  yaml_loads (ev :: evs) =
    match ev with
    | EvLoadAllYaml text => text :: yaml_loads evs
    | _ => yaml_loads evs
    end.
Proof. by destruct ev. Qed.

(** X1.  [render_manifests] depends on the charm alone: in two worlds with
    the same charm it gives the same result and adds the same events, among
    which there is no client call, and it leaves handler and cluster as they
    were.  The desired resources are therefore the same in every pass over an
    unchanged charm, whatever happened to the cluster or the client between
    the passes. *)
Theorem render_manifests_depends_on_charm_only (w w' : World) :
  _charm (handler w) = _charm (handler w') →
  ∃ r evs,
    render_manifests env w = (r, mkWorld (handler w) (cluster w) (trace w ++ evs))
    ∧ render_manifests env w' = (r, mkWorld (handler w') (cluster w') (trace w' ++ evs))
    ∧ client_calls evs = [].
Proof.
  intros Hcharm. rewrite !render_manifests_run, <- Hcharm.
  eexists _, _. split; [reflexivity|]. split; [reflexivity|].
  apply render_events_no_client_calls, render_outcome_events.
Qed.

(** When every template renders, the loop gives the rendered templates in the
    order of the files, after reading each file once. *)
Lemma render_parts_outcome_ok (context : list (string * PyVal))
    (files rendered parts : list string) :
  Forall2 (renders env context) files rendered →
  ∃ evs,
    render_parts_outcome env context files parts = (Ok (parts ++ rendered), evs)
    ∧ read_paths evs = files
    ∧ yaml_loads evs = [].
Proof.
  intros Hall. revert parts.
  induction Hall as [|f r files rendered (text & Hread & Hrender) _ IH]; intros parts.
  - exists []. simpl. by rewrite app_nil_r.
  - simpl. rewrite Hread, Hrender.
    destruct (IH (parts ++ [r])) as (evs & Hout & Hreads & Hloads).
    rewrite Hout. cbn [fst snd app]. eexists.
    split; [by rewrite <- app_assoc|].
    by rewrite !read_paths_cons, !yaml_loads_cons, Hreads, Hloads.
Qed.

(** X2.  When every template file reads and renders, [render_manifests]
    returns what [load_all_yaml] makes of the rendered templates joined, in the
    order of [template_files], by a line holding three dashes; each file is
    read once, in order, and the codec is called once, on that text. *)
Theorem render_manifests_joins_templates (w : World) (rendered : list string) :
  Forall2 (renders env (context_for_render (_charm (handler w))))
    (charm_template_files (_charm (handler w))) rendered →
  ∃ evs,
    render_manifests env w =
      (load_all_yaml env (String.concat manifest_separator rendered),
       mkWorld (handler w) (cluster w) (trace w ++ evs))
    ∧ read_paths evs = charm_template_files (_charm (handler w))
    ∧ yaml_loads evs = [String.concat manifest_separator rendered].
Proof.
  intros Hall. rewrite render_manifests_run. unfold render_outcome.
  destruct (render_parts_outcome_ok _ _ _ [] Hall) as (evs & Hout & Hreads & Hloads).
  rewrite Hout. cbn [fst snd app]. eexists. split; [reflexivity|].
  rewrite !read_paths_cons, !yaml_loads_cons.
  unfold read_paths, yaml_loads in *.
  rewrite !omap_app, Hreads, Hloads. simpl. by rewrite app_nil_r.
Qed.

(** The loop stops at the first template that fails. *)
Lemma render_parts_outcome_fails (context : list (string * PyVal))
    (before after parts : list string) (file : string) (e : Exc) :
  Forall (λ f, ∃ r, renders env context f r) before →
  fails_to_render env context file e →
  ∃ evs,
    render_parts_outcome env context (before ++ file :: after) parts = (Raise e, evs)
    ∧ read_paths evs = before ++ [file]
    ∧ yaml_loads evs = [].
Proof.
  intros Hbefore Hfails. revert parts.
  induction Hbefore as [|f before (r & text & Hread & Hrender) _ IH]; intros parts.
  - simpl. destruct Hfails as [Hread|(text & Hread & Hrender)].
    + rewrite Hread. by eexists.
    + rewrite Hread, Hrender. by eexists.
  - simpl. rewrite Hread, Hrender.
    destruct (IH (parts ++ [r])) as (evs & Hout & Hreads & Hloads).
    rewrite Hout. cbn [fst snd app]. eexists. split; [reflexivity|].
    by rewrite !read_paths_cons, !yaml_loads_cons, Hreads, Hloads.
Qed.

(** X3.  When a template file fails, to be read or to render, after the
    files before it rendered, [render_manifests] raises that very exception:
    the files after it are not read and the codec is not called. *)
Theorem render_manifests_stops_at_first_failure (w : World)
    (before after : list string) (file : string) (e : Exc) :
  charm_template_files (_charm (handler w)) = before ++ file :: after →
  Forall (λ f, ∃ r, renders env (context_for_render (_charm (handler w))) f r) before →
  fails_to_render env (context_for_render (_charm (handler w))) file e →
  ∃ evs,
    render_manifests env w
    = (Raise e, mkWorld (handler w) (cluster w) (trace w ++ evs))
    ∧ read_paths evs = before ++ [file]
    ∧ yaml_loads evs = [].
Proof.
  intros Hfiles Hbefore Hfails. rewrite render_manifests_run. unfold render_outcome.
  rewrite Hfiles.
  destruct (render_parts_outcome_fails _ _ after [] _ _ Hbefore Hfails)
    as (evs & Hout & Hreads & Hloads).
  rewrite Hout. cbn [fst snd app]. eexists. split; [reflexivity|].
  by rewrite !read_paths_cons, !yaml_loads_cons, Hreads, Hloads.
Qed.

End RenderingFacts.

Section PassFacts.

Variable env : Collaborators.

(** ** The client of the handler *)

(** X4.  The [lightkube_client] property answers with the client the
    handler holds, without touching the world.  When the handler holds none
    it builds one with [app_name] as field manager and keeps it, leaving
    charm, [app_name], cluster and trace as they were; and on an object
    without [app_name], as [__init__] builds it, it raises [AttributeError]
    and changes nothing.  In every case a second read answers as the first
    did and changes nothing more. *)
Theorem lightkube_client_is_cached (w : World) :
  match _lightkube_client (handler w), app_name (handler w) with
  | Some c, _ => lightkube_client w = (Ok c, w)
  | None, Some name =>
      ∃ w1, lightkube_client w = (Ok (mkClient name), w1)
            ∧ _lightkube_client (handler w1) = Some (mkClient name)
            ∧ _charm (handler w1) = _charm (handler w)
            ∧ app_name (handler w1) = app_name (handler w)
            ∧ cluster w1 = cluster w ∧ trace w1 = trace w
  | None, None => lightkube_client w = (Raise missing_app_name, w)
  end
  ∧ lightkube_client (lightkube_client w).2
    = ((lightkube_client w).1, (lightkube_client w).2)
  ∧ ∀ charm c evs,
      lightkube_client (mkWorld (KubernetesResourceHandler_init charm) c evs)
      = (Raise missing_app_name, mkWorld (KubernetesResourceHandler_init charm) c evs).
Proof.
  destruct w as [[ch lg [c|] [name|]] cl tr]; simpl; (split; [|done]);
    try done.
  by eexists.
Qed.

(** X5.  The setter of [lightkube_client] keeps a client it is given, and
    the property then answers with that client without building another; given
    anything else it raises [ValueError] and the property answers as it did
    before. *)
Theorem lightkube_client_setter (w : World) :
  (∀ c : Client,
     ∃ w1, set_lightkube_client (inl c) w = (Ok tt, w1)
           ∧ lightkube_client w1 = (Ok c, w1)
           ∧ cluster w1 = cluster w ∧ trace w1 = trace w)
  ∧ (∀ v : PyVal,
       ∃ e w1, set_lightkube_client (inr v) w = (Raise e, w1)
               ∧ e = OtherExc "ValueError" "lightkube_client must be a lightkube.Client"
               ∧ lightkube_client w1 = lightkube_client w).
Proof.
  split.
  - intros c. eexists. split; [reflexivity|]. done.
  - intros v. eexists _, _. split; [reflexivity|]. done.
Qed.

(** ** Reconciling, with or without given resources *)

Lemma reconcile_resources_given (rs : LightkubeResourcesType) (w : World) :
  reconcile_resources env (Some rs) w =
    match client_of (handler w) with
    | Some _ =>
        let out := apply_outcome env (cluster w) rs in
        (out.1.1,
         mkWorld (with_client (handler w)) out.1.2
           (trace w ++ EvLog INFO "Reconciling" :: out.2))
    | None =>
        (Raise missing_app_name,
         mkWorld (handler w) (cluster w)
           (trace w ++ [EvLog INFO "Reconciling";
                        EvLog DEBUG ("Applying " +:+ pretty (length rs)
                                     +:+ " resources")]))
    end.
Proof.
  destruct (client_of (handler w)) as [client|] eqn:Hclient;
    [|by apply reconcile_resources_no_client].
  rewrite (reconcile_resources_run _ _ _ client) by done.
  unfold apply_outcome, after_apply.
  destruct (client_apply_many env (cluster w) rs) as [c' [e|]]; simpl; [|done].
  destruct e as [e'|code text|cl text]; simpl; try done.
  by destruct (code =? 403)%Z.
Qed.

Lemma reconcile_resources_rendered (w : World) :
  reconcile_resources env None w =
    let rendered := render_outcome env (_charm (handler w)) in
    match rendered.1 with
    | Raise e =>
        (Raise e,
         mkWorld (handler w) (cluster w)
           (trace w ++ EvLog INFO "Reconciling" :: rendered.2))
    | Ok rs =>
        match client_of (handler w) with
        | Some _ =>
            let out := apply_outcome env (cluster w) rs in
            (out.1.1,
             mkWorld (with_client (handler w)) out.1.2
               (trace w ++ EvLog INFO "Reconciling" :: rendered.2 ++ out.2))
        | None =>
            (Raise missing_app_name,
             mkWorld (handler w) (cluster w)
               (trace w ++ EvLog INFO "Reconciling" :: rendered.2
                ++ [EvLog DEBUG ("Applying " +:+ pretty (length rs)
                                 +:+ " resources")]))
        end
    end.
Proof.
  unfold reconcile_resources. unfold bind at 1. unfold log_info at 1, emit at 1.
  unfold bind at 1. rewrite render_manifests_run. simpl.
  destruct (render_outcome env (_charm (handler w))) as [[rs|e] revs]; simpl;
    [|by trace_norm].
  unfold apply_outcome. run. rewrite lightkube_client_run. simpl.
  destruct (client_of (handler w)) as [client|]; [|by trace_norm].
  unfold apply_many. simpl.
  destruct (client_apply_many env (cluster w) rs) as [c' [e|]]; simpl.
  - destruct e as [e'|code text|cl text]; simpl; try by trace_norm.
    destruct (code =? 403)%Z; simpl; by trace_norm.
  - unfold emit; simpl. by trace_norm.
Qed.

(** The events of a pass that stops where the client is read. *)
Lemma no_client_events (rs : LightkubeResourcesType) :
  let evs := [EvLog DEBUG ("Applying " +:+ pretty (length rs) +:+ " resources")] in
  client_calls evs = [] ∧ error_lines evs = []
  ∧ EvLog INFO completed_line ∉ evs.
Proof.
  split; [done|]. split; [done|]. intros Hin.
  apply list_elem_of_singleton in Hin. discriminate Hin.
Qed.

Lemma apply_outcome_events (c : Cluster) (rs : LightkubeResourcesType) :
  let out := apply_outcome env c rs in
  client_calls out.2 = [CallApplyMany rs]
  ∧ read_paths out.2 = [] ∧ yaml_loads out.2 = []
  ∧ (EvLog INFO completed_line ∈ out.2 ↔ out.1.1 = Ok tt)
  ∧ out.1.2 = (client_apply_many env c rs).1.
Proof.
  unfold apply_outcome.
  assert (Hno : ∀ (evs : list Event) (x : Exc),
            evs = [] ∨ (∃ a b, evs = [EvLog ERROR a; EvLog ERROR b]) →
            EvLog INFO completed_line
              ∈ EvLog DEBUG ("Applying " +:+ pretty (length rs) +:+ " resources")
                :: EvClient (CallApplyMany rs) :: evs
            ↔ Raise (A:=unit) x = Ok tt).
  { intros evs x Hevs. split; [|discriminate]. intros Hin.
    repeat (apply elem_of_cons in Hin as [Hin|Hin]; [discriminate|]).
    destruct Hevs as [->|(a & b & ->)]; [by apply elem_of_nil in Hin|].
    repeat (apply elem_of_cons in Hin as [Hin|Hin]; [discriminate|]).
    by apply elem_of_nil in Hin. }
  destruct (client_apply_many env c rs) as [c' [e|]]; simpl.
  - destruct e as [e'|code text|cl text]; simpl;
      [| destruct (code =? 403)%Z; simpl |];
      (split; [done|]; split; [done|]; split; [done|]; split; [|done]);
      apply Hno; (by left) || (right; by eexists _, _).
  - split; [done|]. split; [done|]. split; [done|]. split; [|done].
    split; [done|]. intros _. rewrite !elem_of_cons. by right; right; left.
Qed.

(** X6.  [reconcile_resources] does not ask who leads: a pass ends the same
    way, leaves the same cluster and logs and calls the same, whether the
    unit is the leader or not, with given resources or rendered ones.  A unit
    that is not the leader applies just as the leader does. *)
Theorem reconcile_resources_ignores_leadership
    (resources : option LightkubeResourcesType) (b : bool) (w : World) :
  let out := reconcile_resources env resources w in
  let out' := reconcile_resources env resources (set_leader b w) in
  out'.1 = out.1
  ∧ cluster out'.2 = cluster out.2
  ∧ trace out'.2 = trace out.2
  ∧ _lightkube_client (handler out'.2) = _lightkube_client (handler out.2).
Proof.
  destruct resources as [rs|]; simpl.
  - rewrite !reconcile_resources_given.
    change (client_of (handler (set_leader b w))) with (client_of (handler w)).
    unfold with_client.
    change (client_of (handler (set_leader b w))) with (client_of (handler w)).
    by destruct (client_of (handler w)).
  - rewrite !reconcile_resources_rendered.
    change (render_outcome env (_charm (handler (set_leader b w))))
      with (render_outcome env (_charm (handler w))).
    change (client_of (handler (set_leader b w))) with (client_of (handler w)).
    unfold with_client.
    change (client_of (handler (set_leader b w))) with (client_of (handler w)).
    destruct (render_outcome env (_charm (handler w))) as [[rs|e] revs]; simpl;
      [|done].
    by destruct (client_of (handler w)).
Qed.

(** X7.  An exception of [apply_many] that is not an [ApiError] goes through
    [reconcile_resources] as it is, an [ErrorWithStatus] included: the pass
    raises it, logs nothing at level [ERROR] and does not log completion; the
    cluster stays as the writer left it.  ([apply_many] is called on the
    handler's client.) *)
Theorem reconcile_resources_other_exception (rs : LightkubeResourcesType)
    (w : World) (client : Client) (c' : Cluster) (e : Exc) :
  client_of (handler w) = Some client →
  client_apply_many env (cluster w) rs = (c', Some e) →
  (∀ code text, e ≠ ApiError code text) →
  ∃ evs,
    reconcile_resources env (Some rs) w
    = (Raise e, mkWorld (with_client (handler w)) c' (trace w ++ evs))
    ∧ error_lines evs = []
    ∧ EvLog INFO completed_line ∉ evs.
Proof.
  intros Hclient Hw Hne. rewrite (reconcile_resources_run _ _ _ client), Hw by done.
  destruct e as [e'|code text|cl text]; [|by destruct (Hne code text)|];
    (eexists; split; [reflexivity|]; split; [done|]);
    intros Hin; repeat (apply elem_of_cons in Hin as [Hin|Hin]; [discriminate|]);
    by apply elem_of_nil in Hin.
Qed.

(** X8.  The line that says the reconcile completed is in the log of a pass
    exactly when the pass ended without raising, with given resources or
    rendered ones. *)
Theorem reconcile_resources_completed_line (resources : option LightkubeResourcesType)
    (w : World) :
  ∃ evs,
    trace (reconcile_resources env resources w).2 = trace w ++ evs
    ∧ (EvLog INFO completed_line ∈ evs
       ↔ (reconcile_resources env resources w).1 = Ok tt).
Proof.
  assert (Hstop : ∀ (pre : list Event) (rs : LightkubeResourcesType),
            EvLog INFO completed_line ∉ pre →
            EvLog INFO completed_line
              ∈ EvLog INFO "Reconciling"
                :: pre ++ [EvLog DEBUG ("Applying " +:+ pretty (length rs)
                                        +:+ " resources")]
            ↔ Raise (A:=unit) missing_app_name = Ok tt).
  { intros pre rs Hpre. split; [|discriminate]. intros Hin.
    apply elem_of_cons in Hin as [Hin|Hin]; [discriminate|].
    apply elem_of_app in Hin as [Hin|Hin]; [done|].
    apply list_elem_of_singleton in Hin. discriminate Hin. }
  destruct resources as [rs|].
  - rewrite reconcile_resources_given.
    destruct (client_of (handler w)) as [client|]; simpl.
    + eexists. split; [reflexivity|].
      destruct (apply_outcome_events (cluster w) rs) as (_ & _ & _ & Hdone & _).
      rewrite <- Hdone. rewrite elem_of_cons. split; [|by right].
      by intros [Heq|Hin]; [discriminate|].
    + eexists. split; [reflexivity|]. apply (Hstop [] rs).
      by intros Hin%elem_of_nil.
  - rewrite reconcile_resources_rendered. simpl.
    pose proof (render_outcome_events env (_charm (handler w))) as Hrender.
    assert (Hnot : EvLog INFO completed_line
                   ∉ (render_outcome env (_charm (handler w))).2).
    { intros Hin. rewrite Forall_forall in Hrender.
      apply Hrender in Hin. discriminate Hin. }
    destruct (render_outcome env (_charm (handler w))) as [[rs|e] revs]; simpl in *.
    + destruct (client_of (handler w)) as [client|]; simpl.
      * eexists. split; [reflexivity|].
        destruct (apply_outcome_events (cluster w) rs) as (_ & _ & _ & Hdone & _).
        rewrite <- Hdone. rewrite elem_of_cons, elem_of_app.
        split; [|by right; right].
        by intros [Heq|[Hin|Hin]]; [discriminate| |].
      * eexists. split; [reflexivity|]. by apply Hstop.
    + eexists. split; [reflexivity|]. rewrite elem_of_cons.
      split; [|discriminate]. by intros [Heq|Hin]; [discriminate|].
Qed.

(** X9.  When rendering fails, [reconcile_resources] without given resources
    raises the exception of the rendering as it is, even an [ApiError] with
    code 403, which only [apply_many] has relabelled: the client is neither
    built nor called, the cluster is untouched and nothing is logged at level
    [ERROR]. *)
Theorem reconcile_resources_render_failure (w : World) (e : Exc) :
  (render_manifests env w).1 = Raise e →
  ∃ evs,
    reconcile_resources env None w
    = (Raise e, mkWorld (handler w) (cluster w) (trace w ++ evs))
    ∧ client_calls evs = []
    ∧ error_lines evs = [].
Proof.
  rewrite render_manifests_run, reconcile_resources_rendered. simpl.
  pose proof (render_outcome_events env (_charm (handler w))) as Hrender.
  apply render_events_no_client_calls in Hrender as [Hc He].
  destruct (render_outcome env (_charm (handler w))) as [[rs|e'] revs]; simpl in *;
    [discriminate|].
  intros [= ->]. eexists. split; [reflexivity|]. done.
Qed.

(** X10.  When rendering gives resources, [reconcile_resources] without
    given resources ends as it does when given those: same result, same
    cluster and handler afterwards, and the same client calls, which are one
    [apply_many] of the rendered resources when the handler has a client to
    give and none when it has not. *)
Theorem reconcile_resources_applies_rendered (w : World) (rs : LightkubeResourcesType) :
  (render_manifests env w).1 = Ok rs →
  (reconcile_resources env None w).1 = (reconcile_resources env (Some rs) w).1
  ∧ cluster (reconcile_resources env None w).2
    = cluster (reconcile_resources env (Some rs) w).2
  ∧ handler (reconcile_resources env None w).2
    = handler (reconcile_resources env (Some rs) w).2
  ∧ ∃ evs,
      trace (reconcile_resources env None w).2 = trace w ++ evs
      ∧ client_calls evs
        = match client_of (handler w) with
          | Some _ => [CallApplyMany rs]
          | None => []
          end.
Proof.
  rewrite render_manifests_run, reconcile_resources_rendered,
    reconcile_resources_given. simpl.
  pose proof (render_outcome_events env (_charm (handler w))) as Hrender.
  apply render_events_no_client_calls in Hrender as [Hc _].
  destruct (render_outcome env (_charm (handler w))) as [[rs'|e'] revs]; simpl in *;
    [|discriminate].
  intros [= ->].
  destruct (client_of (handler w)) as [client|]; simpl;
    (split; [done|]; split; [done|]; split; [done|]);
    (eexists; split; [reflexivity|]).
  - destruct (apply_outcome_events (cluster w) rs) as (Hcalls & _).
    unfold client_calls in *. simpl. by rewrite omap_app, Hc, Hcalls.
  - unfold client_calls in *. simpl. by rewrite omap_app, Hc.
Qed.

(** X11.  [reconcile_resources] logs at level [ERROR] only when [apply_many],
    called on the handler's client, was refused with code 403, and then two
    lines, the second of which keeps the text of the error that the
    [ReconcileError] replaces. *)
Theorem reconcile_resources_error_lines (rs : LightkubeResourcesType) (w : World) :
  ∃ evs,
    trace (reconcile_resources env (Some rs) w).2 = trace w ++ evs
    ∧ (∀ client c' text,
         client_of (handler w) = Some client →
         client_apply_many env (cluster w) rs = (c', Some (ApiError 403 text)) →
         error_lines evs = [forbidden_line; "Error received: " +:+ text])
    ∧ ((∀ c' text,
          client_apply_many env (cluster w) rs ≠ (c', Some (ApiError 403 text))) →
       error_lines evs = [])
    ∧ (client_of (handler w) = None → error_lines evs = []).
Proof.
  destruct (client_of (handler w)) as [client|] eqn:Hclient.
  - rewrite (reconcile_resources_run _ _ _ client) by done.
    destruct (client_apply_many env (cluster w) rs) as [c' [e|]] eqn:Hw.
    + destruct e as [e'|code text|cl text].
      * eexists. split; [reflexivity|]. split; [|done].
        intros cl c'' text' _ Heq. discriminate Heq.
      * destruct (Z.eqb_spec code 403) as [->|Hne].
        -- eexists. split; [reflexivity|]. split; [|split; [|done]].
           ++ intros cl c'' text' _ Heq. by injection Heq as <- <-.
           ++ intros Hnot. by destruct (Hnot c' text).
        -- eexists. split; [reflexivity|]. split; [|done].
           intros cl c'' text' _ Heq. injection Heq as _ Hcode _. by destruct Hne.
      * eexists. split; [reflexivity|]. split; [|done].
        intros client' c'' text' _ Heq. discriminate Heq.
    + eexists. split; [reflexivity|]. split; [|done].
      intros cl c'' text' _ Heq. discriminate Heq.
  - rewrite reconcile_resources_no_client by done. simpl.
    eexists. split; [reflexivity|]. split; [|done].
    intros cl c'' text' Hcl. discriminate Hcl.
Qed.

(** X12.  A pass of [reconcile_resources] keeps the handler's charm, logger
    and [app_name], and the client the [lightkube_client] property answers
    with is the same after the pass as before it. *)
Theorem reconcile_resources_keeps_handler (resources : option LightkubeResourcesType)
    (w : World) :
  let h' := handler (reconcile_resources env resources w).2 in
  _charm h' = _charm (handler w)
  ∧ log h' = log (handler w)
  ∧ app_name h' = app_name (handler w)
  ∧ (lightkube_client (reconcile_resources env resources w).2).1
    = (lightkube_client w).1.
Proof.
  assert (Hkeep : ∀ h : Handler,
            _charm (with_client h) = _charm h ∧ log (with_client h) = log h
            ∧ app_name (with_client h) = app_name h
            ∧ client_of (with_client h) = client_of h).
  { intros [ch lg [c|] [name|]]; by compute. }
  assert (Hread : ∀ w1 w2 : World,
            client_of (handler w1) = client_of (handler w2) →
            (lightkube_client w1).1 = (lightkube_client w2).1).
  { intros w1 w2 Heq. rewrite !lightkube_client_run, Heq.
    by destruct (client_of (handler w2)). }
  destruct (Hkeep (handler w)) as (Hch & Hlg & Happ & Hcl).
  destruct resources as [rs|].
  - rewrite reconcile_resources_given.
    destruct (client_of (handler w)) as [client|] eqn:Hclient; cbv zeta; simpl;
      (split; [done|]; split; [done|]; split; [done|]);
      apply Hread; simpl; congruence.
  - rewrite reconcile_resources_rendered.
    destruct (render_outcome env (_charm (handler w))) as [[rs|e] revs];
      [destruct (client_of (handler w)) as [client|] eqn:Hclient|];
      cbv zeta; simpl;
      (split; [done|]; split; [done|]; split; [done|]);
      apply Hread; simpl; congruence.
Qed.

(** ** The status pass and the rendering *)

(** X13.  When rendering fails for a leader, [resource_status] without
    given resources raises the exception of the rendering: it is not turned
    into a status, no client is built and the cluster is not read. *)
Theorem resource_status_render_failure (w : World) (e : Exc) :
  unit_is_leader (_charm (handler w)) = true →
  (render_manifests env w).1 = Raise e →
  ∃ evs,
    resource_status env None w
    = (Raise e, mkWorld (handler w) (cluster w) (trace w ++ evs))
    ∧ client_calls evs = [].
Proof.
  intros Hl. rewrite render_manifests_run. simpl. intros Hrender.
  unfold resource_status, is_leader. unfold bind at 1.
  unfold log_info at 1, emit at 1. run. rewrite Hl. simpl.
  rewrite render_manifests_run. simpl. rewrite Hrender.
  eexists. split; [by trace_norm|].
  pose proof (render_outcome_events env (_charm (handler w))) as Hev.
  by apply render_events_no_client_calls in Hev as [Hc _].
Qed.

(** X14.  On a handler that has neither a client nor an [app_name], as
    [__init__] leaves it, both passes stop where the [lightkube_client]
    property is read: [reconcile_resources] raises [AttributeError] after its
    first two log lines, and so does a leader's [resource_status], before any
    check.  Neither calls the client, and handler and cluster are untouched. *)
Theorem passes_need_a_client (rs : LightkubeResourcesType) (w : World) :
  client_of (handler w) = None →
  (∃ evs,
     reconcile_resources env (Some rs) w
     = (Raise missing_app_name, mkWorld (handler w) (cluster w) (trace w ++ evs))
     ∧ client_calls evs = [] ∧ error_lines evs = [])
  ∧ (unit_is_leader (_charm (handler w)) = true →
     ∃ evs,
       resource_status env (Some rs) w
       = (Raise missing_app_name, mkWorld (handler w) (cluster w) (trace w ++ evs))
       ∧ client_calls evs = []).
Proof.
  intros Hclient. split.
  - rewrite reconcile_resources_no_client by done. eexists. by split.
  - intros Hl. unfold resource_status, is_leader. run. rewrite Hl. simpl.
    rewrite lightkube_client_run. simpl. rewrite Hclient.
    eexists. by split.
Qed.

End PassFacts.

(** ** The further properties at work *)

Lemma render_manifests_depends_on_charm_only_witness :
  let env := template_env [] [web; role] None in
  let w := bare_world templated_charm ∅ in
  let w' := mkWorld (handler (fresh_world templated_charm ∅)) (upsert ∅ web)
              [EvLog INFO "Reconciling"] in
  ∃ r evs,
    render_manifests env w = (r, mkWorld (handler w) (cluster w) (trace w ++ evs))
    ∧ render_manifests env w' = (r, mkWorld (handler w') (cluster w') (trace w' ++ evs))
    ∧ client_calls evs = [].
Proof.
  intros env w w'.
  apply (render_manifests_depends_on_charm_only env w w'). reflexivity.
Defined.

Lemma render_manifests_joins_templates_witness :
  let env := template_env [] [web; role] None in
  let w := fresh_world templated_charm ∅ in
  let rendered := ["<web.yaml.j2>"; "<role.yaml.j2>"] in
  ∃ evs,
    render_manifests env w =
      (load_all_yaml env (String.concat manifest_separator rendered),
       mkWorld (handler w) (cluster w) (trace w ++ evs))
    ∧ read_paths evs = charm_template_files (_charm (handler w))
    ∧ yaml_loads evs = [String.concat manifest_separator rendered].
Proof.
  intros env w rendered.
  apply (render_manifests_joins_templates env w rendered).
  repeat constructor; eexists; split; reflexivity.
Defined.

Lemma render_manifests_stops_at_first_failure_witness :
  let env := template_env ["role.yaml.j2"] [web; role] None in
  let w := bare_world
             (mkCharm true false [] ["web.yaml.j2"; "role.yaml.j2"; "api.yaml.j2"])
             ∅ in
  ∃ evs,
    render_manifests env w
    = (Raise (OtherExc "FileNotFoundError" "role.yaml.j2"),
       mkWorld (handler w) (cluster w) (trace w ++ evs))
    ∧ read_paths evs = ["web.yaml.j2"] ++ ["role.yaml.j2"]
    ∧ yaml_loads evs = [].
Proof.
  intros env w.
  apply (render_manifests_stops_at_first_failure env w
           ["web.yaml.j2"] ["api.yaml.j2"] "role.yaml.j2"
           (OtherExc "FileNotFoundError" "role.yaml.j2")).
  - reflexivity.
  - repeat constructor. eexists _, _. split; reflexivity.
  - left. reflexivity.
Defined.

(** A unit that is not the leader applies [web] as the leader would. *)
Example reconcile_resources_by_follower :
  let out := reconcile_resources (simple_env None []) (Some [web])
               (fresh_world follower_charm ∅) in
  out.1 = Ok tt
  ∧ cluster out.2 !! resource_id web = Some (mkLiveObject "replicas: 2" "Ready").
Proof. split; by vm_compute. Qed.

Lemma reconcile_resources_other_exception_witness :
  let e := OtherExc "ConnectError" "connection refused" in
  let env := simple_env (Some e) [] in
  let w := fresh_world leader_charm ∅ in
  ∃ evs,
    reconcile_resources env (Some [web; role]) w
    = (Raise e, mkWorld (with_client (handler w)) ∅ (trace w ++ evs))
    ∧ error_lines evs = []
    ∧ EvLog INFO completed_line ∉ evs.
Proof.
  intros e env w.
  apply (reconcile_resources_other_exception env [web; role] w (mkClient "app") ∅ e).
  - reflexivity.
  - reflexivity.
  - intros code text. discriminate.
Defined.

Lemma reconcile_resources_render_failure_witness :
  let env := template_env ["web.yaml.j2"] [web; role] None in
  let w := fresh_world templated_follower ∅ in
  ∃ evs,
    reconcile_resources env None w
    = (Raise (OtherExc "FileNotFoundError" "web.yaml.j2"),
       mkWorld (handler w) (cluster w) (trace w ++ evs))
    ∧ client_calls evs = []
    ∧ error_lines evs = [].
Proof.
  intros env w.
  apply (reconcile_resources_render_failure env w
           (OtherExc "FileNotFoundError" "web.yaml.j2")).
  reflexivity.
Defined.

Lemma reconcile_resources_applies_rendered_witness :
  let env := template_env [] [web; role] None in
  let w := fresh_world templated_charm ∅ in
  (reconcile_resources env None w).1 = (reconcile_resources env (Some [web; role]) w).1
  ∧ cluster (reconcile_resources env None w).2
    = cluster (reconcile_resources env (Some [web; role]) w).2
  ∧ handler (reconcile_resources env None w).2
    = handler (reconcile_resources env (Some [web; role]) w).2
  ∧ ∃ evs,
      trace (reconcile_resources env None w).2 = trace w ++ evs
      ∧ client_calls evs = [CallApplyMany [web; role]].
Proof.
  intros env w.
  apply (reconcile_resources_applies_rendered env w [web; role]). reflexivity.
Defined.

Lemma reconcile_resources_error_lines_witness :
  let env := simple_env (Some (ApiError 403 "Forbidden")) [] in
  let w := fresh_world leader_charm ∅ in
  ∃ evs,
    trace (reconcile_resources env (Some [web]) w).2 = trace w ++ evs
    ∧ error_lines evs = [forbidden_line; "Error received: Forbidden"].
Proof.
  intros env w.
  destruct (reconcile_resources_error_lines env [web] w) as (evs & Htrace & Hlines & _).
  exists evs. split; [exact Htrace|].
  apply (Hlines (mkClient "app") ∅ "Forbidden"); reflexivity.
Defined.

Lemma resource_status_render_failure_witness :
  let env := template_env ["web.yaml.j2"] [web; role] None in
  let w := fresh_world templated_charm ∅ in
  ∃ evs,
    resource_status env None w
    = (Raise (OtherExc "FileNotFoundError" "web.yaml.j2"),
       mkWorld (handler w) (cluster w) (trace w ++ evs))
    ∧ client_calls evs = [].
Proof.
  intros env w.
  apply (resource_status_render_failure env w
           (OtherExc "FileNotFoundError" "web.yaml.j2"));
    reflexivity.
Defined.

Lemma passes_need_a_client_witness :
  let env := simple_env None [] in
  let w := bare_world leader_charm ∅ in
  (∃ evs,
     reconcile_resources env (Some [web]) w
     = (Raise missing_app_name, mkWorld (handler w) (cluster w) (trace w ++ evs))
     ∧ client_calls evs = [] ∧ error_lines evs = [])
  ∧ (∃ evs,
       resource_status env (Some [web]) w
       = (Raise missing_app_name, mkWorld (handler w) (cluster w) (trace w ++ evs))
       ∧ client_calls evs = []).
Proof.
  intros env w.
  destruct (passes_need_a_client env [web] w) as [Hreconcile Hstatus];
    [reflexivity|].
  split; [exact Hreconcile|]. apply Hstatus. reflexivity.
Defined.
